(** * ibc/utils/auth.py : the [InteractiveBrokersAuthentication] helper

    A shallow embedding of the class in [src/ibc/utils/auth.py].

    The class keeps five attributes and talks to three collaborators: the
    operating system ([subprocess.run], [subprocess.Popen],
    [webbrowser.open], [print]), the HTTP session object
    ([session.make_request]) and the [csv] module.  Methods are embedded as
    computations of a state-and-exception monad over the attributes of
    [self]; every call to a collaborator is appended to a chronological
    trace of events, and the collaborator's answer is read from a [World]
    that may depend on everything that happened before.

    Conventions.
    - A Python [str] is a [string]; a character is a code point below 256.
    - [subprocess.run(...).stdout.decode()] is one observation of the world:
      the decoded standard output of the command.
    - An exception is represented by its class; [except Exception] catches
      the classes deriving from [Exception] and nothing else. *)

From Stdlib Require Import Strings.String Strings.Ascii.
From Stdlib Require Import Lists.List.
From Stdlib Require Import ZArith.ZArith.
From Stdlib Require Import Numbers.DecimalString Numbers.DecimalPos Numbers.DecimalZ.
From Stdlib Require Import Bool.Bool.
From Stdlib Require Import micromega.Lia.
Import ListNotations.

Set Warnings "-register-all".

Local Open Scope string_scope.
Local Open Scope list_scope.

(** ** Python strings *)

Module PyStr.

(** The line boundaries of [str.splitlines] that are code points below
    256: LF, VT, FF, CR, FS, GS, RS and NEL. *)
Definition is_line_boundary (c : ascii) : bool :=
  match nat_of_ascii c with
  | 10 | 11 | 12 | 13 | 28 | 29 | 30 | 133 => true
  | _ => false
  end.

Definition is_CR (c : ascii) : bool := Ascii.eqb c (ascii_of_nat 13).
Definition is_LF (c : ascii) : bool := Ascii.eqb c (ascii_of_nat 10).

(** [s.splitlines()]: the lines of [s] without their boundaries; CR LF is
    one boundary; a boundary at the very end opens no further line. *)
Fixpoint splitlines (s : string) : list string :=
  match s with
  | EmptyString => []
  | String c rest =>
      if is_line_boundary c then
        EmptyString ::
          match rest with
          | EmptyString => []
          | String c2 rest' =>
              if is_CR c && is_LF c2 then splitlines rest'
              else splitlines rest
          end
      else
        match splitlines rest with
        | [] => [String c EmptyString]
        | l :: ls => String c l :: ls
        end
  end.

(** [needle in s] for two strings. *)
Fixpoint contains (needle s : string) : bool :=
  prefix needle s ||
  match s with
  | EmptyString => false
  | String _ rest => contains needle rest
  end.

(** [s.replace(c, '')] for a one-character [c]. *)
Fixpoint remove_char (c : ascii) (s : string) : string :=
  match s with
  | EmptyString => EmptyString
  | String d rest =>
      if Ascii.eqb c d then remove_char c rest
      else String d (remove_char c rest)
  end.

(** [s.split(c)] for a one-character separator: never the empty list. *)
Fixpoint split (c : ascii) (s : string) : list string :=
  match s with
  | EmptyString => [EmptyString]
  | String d rest =>
      if Ascii.eqb c d then EmptyString :: split c rest
      else
        match split c rest with
        | [] => [String d EmptyString]
        | l :: ls => String d l :: ls
        end
  end.

(** [str(n)] for an [int]. *)
Definition of_int (n : Z) : string := NilZero.string_of_int (Z.to_int n).

End PyStr.

Definition double_quote : ascii := ascii_of_nat 34.

Definition LF : string := String (ascii_of_nat 10) EmptyString.
Definition CR : string := String (ascii_of_nat 13) EmptyString.

(** ** Python values, exceptions and outcomes *)

(** The values the session hands back (decoded JSON) and the values given
    as [account_id]. A [PyDict] lists the items of a dict in insertion
    order. *)
Inductive PyVal : Type :=
| PyNone
| PyBool (b : bool)
| PyInt (n : Z)
| PyStr (s : string)
| PyList (l : list PyVal)
| PyDict (items : list (string * PyVal)).

(** Exception classes. [KeyboardInterrupt], [SystemExit], [GeneratorExit]
    and [OtherBaseException] derive from [BaseException] only. *)
Inductive PyExc : Type :=
| KeyError (key : string)
| IndexError
| TypeError
| HTTPError
| CsvError
| OtherException (name : string)
| KeyboardInterrupt
| SystemExit
| GeneratorExit
| OtherBaseException (name : string).

(** [isinstance(e, Exception)]. *)
Definition isinstance_Exception (e : PyExc) : bool :=
  match e with
  | KeyboardInterrupt | SystemExit | GeneratorExit | OtherBaseException _ => false
  | _ => true
  end.

Inductive Outcome (A : Type) : Type :=
| Returned (a : A)
| Raised (e : PyExc).
Arguments Returned {A} a.
Arguments Raised {A} e.

Definition raises {A : Type} (o : Outcome A) : bool :=
  match o with
  | Returned _ => false
  | Raised _ => true
  end.

Module Py.

Fixpoint dict_get (items : list (string * PyVal)) (key : string) : option PyVal :=
  match items with
  | [] => None
  | (k, v) :: rest => if String.eqb k key then Some v else dict_get rest key
  end.

(** [v[key]] for a [str] key: a dict is looked up, every other value
    refuses a string subscript. *)
Definition getitem (v : PyVal) (key : string) : Outcome PyVal :=
  match v with
  | PyDict items =>
      match dict_get items key with
      | Some x => Returned x
      | None => Raised (KeyError key)
      end
  | _ => Raised TypeError
  end.

(** [v == True]: [True] itself and the integer [1]. *)
Definition eq_True (v : PyVal) : bool :=
  match v with
  | PyBool b => b
  | PyInt n => Z.eqb n 1
  | _ => false
  end.

End Py.

(** ** The attributes of [self] *)

(** What [server_process_id] holds: [None], the [int] pid of [Popen], or a
    [str] cut from the output of [pgrep] or [tasklist]. *)
Inductive ProcessId : Type :=
| PidNone
| PidInt (n : Z)
| PidStr (s : string).

(** [str(pid)]. *)
Definition str_of_pid (pid : ProcessId) : string :=
  match pid with
  | PidNone => "None"
  | PidInt n => PyStr.of_int n
  | PidStr s => s
  end.

(** A collaborator object, known by its identity. *)
Definition ObjRef : Type := nat.

Record Auth : Type := mkAuth {
  client : ObjRef;
  session : ObjRef;
  authenticated : bool;
  server_process_id : ProcessId;
  is_windows : bool
}.

Definition set_authenticated (b : bool) (self : Auth) : Auth :=
  mkAuth (client self) (session self) b (server_process_id self) (is_windows self).

Definition set_server_process_id (pid : ProcessId) (self : Auth) : Auth :=
  mkAuth (client self) (session self) (authenticated self) pid (is_windows self).

(** [__init__(ib_client, ib_session)], with the value of [os.name]. *)
Definition init (os_name : string) (ib_client ib_session : ObjRef) : Auth :=
  {| client := ib_client;
     session := ib_session;
     authenticated := false;
     server_process_id := PidNone;
     is_windows := String.eqb os_name "nt" |}.

(** ** Collaborators, events and the world *)

Inductive Stdio : Type := DEVNULL.
Inductive CreationFlag : Type := CREATE_NEW_CONSOLE.

(** The keyword arguments of [subprocess.Popen]. *)
Record PopenKwargs : Type := mkPopen {
  cwd : string;
  start_new_session : bool;
  stdin : Stdio;
  stdout : Stdio;
  stderr : Stdio;
  args : list string;
  creationflags : option CreationFlag
}.

(** The arguments of [session.make_request]. *)
Record Request : Type := mkRequest {
  method : string;
  endpoint : string;
  json_payload : option PyVal
}.

Inductive Event : Type :=
| EvPrint (msg : string)
| EvRun (command : list string)
| EvPopen (kwargs : PopenKwargs)
| EvWebOpen (url : string)
| EvRequest (sess : ObjRef) (req : Request).

Definition Trace : Type := list Event.

(** A row of [csv.DictReader]: the field names with their values, [None]
    standing for the [restval] of a short row. *)
Definition CsvRow : Type := list (string * option string).

(** The answers of the collaborators. Each may depend on the trace so far. *)
Record World : Type := mkWorld {
  run_stdout : Trace -> list string -> string;
  popen_pid : Trace -> PopenKwargs -> Z;
  make_request : Trace -> ObjRef -> Request -> Outcome PyVal;
  DictReader : list string -> list string -> Outcome (list CsvRow)
}.

(** ** The monad of methods *)

Definition M (A : Type) : Type := Auth -> Trace -> Outcome A * Auth * Trace.

Definition ret {A : Type} (a : A) : M A := fun self t => (Returned a, self, t).

Definition raise {A : Type} (e : PyExc) : M A := fun self t => (Raised e, self, t).

Definition bind {A B : Type} (m : M A) (k : A -> M B) : M B :=
  fun self t =>
    match m self t with
    | (Returned a, self', t') => k a self' t'
    | (Raised e, self', t') => (Raised e, self', t')
    end.

Notation "x <- m ;; k" := (bind m (fun x => k))
  (at level 61, m at next level, right associativity).
Notation "m ;;; k" := (bind m (fun _ => k))
  (at level 61, right associativity).

Definition get_self : M Auth := fun self t => (Returned self, self, t).

Definition put_self (f : Auth -> Auth) : M unit := fun self t => (Returned tt, f self, t).

Definition lift {A : Type} (o : Outcome A) : M A := fun self t => (o, self, t).

(** [try: body except Exception: handler]. *)
Definition try_except_Exception {A : Type} (body handler : M A) : M A :=
  fun self t =>
    match body self t with
    | (Raised e, self', t') =>
        if isinstance_Exception e then handler self' t'
        else (Raised e, self', t')
    | r => r
    end.

Definition emit (e : Event) : M unit := fun self t => (Returned tt, self, t ++ [e]).

Definition print (msg : string) : M unit := emit (EvPrint msg).

Definition webbrowser_open (url : string) : M unit := emit (EvWebOpen url).

(** ** The class [InteractiveBrokersAuthentication] *)

(** The dict returned by [_is_already_running]: its ['data'] entry is the
    text of the command, its lines, or the rows read from its CSV. *)
Inductive RunData : Type :=
| DataStr (s : string)
| DataLines (l : list string)
| DataRows (rows : list CsvRow).

Record RunningResponse : Type := mkResponse {
  is_running : bool;
  data : RunData
}.

(** [data[0]]: a one-character string, a line, or a row. *)
Inductive Item0 : Type :=
| ItemStr (s : string)
| ItemRow (r : CsvRow).

Definition index0 (d : RunData) : Outcome Item0 :=
  match d with
  | DataStr EmptyString => Raised IndexError
  | DataStr (String c _) => Returned (ItemStr (String c EmptyString))
  | DataLines [] => Raised IndexError
  | DataLines (l :: _) => Returned (ItemStr l)
  | DataRows [] => Raised IndexError
  | DataRows (r :: _) => Returned (ItemRow r)
  end.

Fixpoint row_get (r : CsvRow) (key : string) : option (option string) :=
  match r with
  | [] => None
  | (k, v) :: rest => if String.eqb k key then Some v else row_get rest key
  end.

(** ['PID' in item]. *)
Definition contains_PID (item : Item0) : bool :=
  match item with
  | ItemStr s => PyStr.contains "PID" s
  | ItemRow r => match row_get r "PID" with Some _ => true | None => false end
  end.

(** [item['PID']]. *)
Definition getitem_PID (item : Item0) : Outcome ProcessId :=
  match item with
  | ItemStr _ => Raised TypeError
  | ItemRow r =>
      match row_get r "PID" with
      | Some (Some s) => Returned (PidStr s)
      | Some None => Returned PidNone
      | None => Raised (KeyError "PID")
      end
  end.

(** The command of [_is_already_running]. *)
Definition running_command (windows : bool) : list string :=
  if windows then
    ["tasklist"; "/fi"; "WindowTitle eq Interactive Brokers Python API*"; "/FO"; "CSV"]
  else
    ["pgrep"; "-f"; "Interactive Brokers Python API*"].

(** The keyword arguments of [_startup_gateway]. *)
Definition startup_kwargs (windows : bool) : PopenKwargs :=
  {| cwd := "ibc/resources/clientportal.beta.gw";
     start_new_session := true;
     stdin := DEVNULL;
     stdout := DEVNULL;
     stderr := DEVNULL;
     args :=
       if windows then
         ["cmd"; "/k"; "start"; "Interactive Brokers Python API"; "bin\run.bat"; "root\conf.yaml"]
       else
         ["bash"; "-c"; "exec -a Interactive_Brokers_Python_API bin/run.sh root/conf.yaml"];
     creationflags := if windows then Some CREATE_NEW_CONSOLE else None |}.

(** The command of [close_gateway]. *)
Definition close_command (windows : bool) (pid : ProcessId) : list string :=
  if windows then ["Taskkill"; "/F"; "/PID"; str_of_pid pid]
  else ["kill"; "-9"; str_of_pid pid].

Definition no_tasks_message : string :=
  "INFO: No tasks are running which match the specified criteria.".

Definition gateway_url : string := "https://localhost:5000".

Section Methods.

Variable w : World.

(** [subprocess.run(args=command, capture_output=True).stdout.decode()]. *)
Definition subprocess_run (command : list string) : M string :=
  fun self t => (Returned (run_stdout w t command), self, t ++ [EvRun command]).

(** The [pid] of [subprocess.Popen] called with the keyword arguments. *)
Definition subprocess_Popen (kwargs : PopenKwargs) : M Z :=
  fun self t => (Returned (popen_pid w t kwargs), self, t ++ [EvPopen kwargs]).

(** [self.session.make_request(method, endpoint, json_payload)]. *)
Definition session_make_request (req : Request) : M PyVal :=
  fun self t =>
    (make_request w t (session self) req, self, t ++ [EvRequest (session self) req]).

Definition _startup_gateway : M unit :=
  self <- get_self ;;
  pid <- subprocess_Popen (startup_kwargs (is_windows self)) ;;
  put_self (set_server_process_id (PidInt pid)) ;;;
  webbrowser_open gateway_url.

Definition _is_already_running : M RunningResponse :=
  self <- get_self ;;
  content <- subprocess_run (running_command (is_windows self)) ;;
  if is_windows self then
    data <-
      (if PyStr.contains "INFO:" content then ret (DataStr content)
       else
         match PyStr.splitlines content with
         | [] => raise IndexError
         | first :: rest =>
             let headers := PyStr.split "," (PyStr.remove_char double_quote first) in
             rows <- lift (DictReader w rest headers) ;;
             ret (DataRows rows)
         end) ;;
    item <- lift (index0 data) ;;
    if contains_PID item then
      pid <- lift (getitem_PID item) ;;
      put_self (set_server_process_id pid) ;;;
      ret {| is_running := true; data := data |}
    else
      ret {| is_running := false; data := data |}
  else
    if String.eqb content EmptyString then
      ret {| is_running := false; data := DataStr no_tasks_message |}
    else
      let data := PyStr.splitlines content in
      match data with
      | [] => raise IndexError
      | first :: _ =>
          put_self (set_server_process_id (PidStr first)) ;;;
          ret {| is_running := true; data := DataLines data |}
      end.

Definition login (_use_selenium : bool) : M unit :=
  is_running_response <- _is_already_running ;;
  if negb (is_running is_running_response) then
    _startup_gateway
  else
    print "Gateway already running, no need to start back up.".

Definition close_gateway (pid : ProcessId) : M string :=
  self <- get_self ;;
  let pid := match pid with PidNone => server_process_id self | _ => pid end in
  subprocess_run (close_command (is_windows self) pid).

Definition is_authenticated (check : bool) : M PyVal :=
  content <- session_make_request
    {| method := "post"; endpoint := "/api/iserver/auth/status"; json_payload := None |} ;;
  ret content.

Definition update_server_account (account_id : PyVal) : M PyVal :=
  let payload := PyDict [("acctId", account_id)] in
  content <- session_make_request
    {| method := "post"; endpoint := "/api/iserver/account"; json_payload := Some payload |} ;;
  ret content.

Definition sso_validate : M PyVal :=
  content <- session_make_request
    {| method := "post"; endpoint := "/api/sso/validate"; json_payload := None |} ;;
  ret content.

Definition reauthenticate : M PyVal :=
  content <- session_make_request
    {| method := "post"; endpoint := "/api/iserver/reauthenticate"; json_payload := None |} ;;
  ret content.

Definition check_auth : M unit :=
  print "Checking authentication status..." ;;;
  try_except_Exception
    (response <- is_authenticated false ;;
     flag <- lift (Py.getitem response "authenticated") ;;
     if Py.eq_True flag then put_self (set_authenticated true)
     else ret tt)
    (ret tt).

End Methods.

(** ** Calls from outside *)

Inductive Op : Type :=
| OpLogin (_use_selenium : bool)
| OpStartupGateway
| OpIsAlreadyRunning
| OpCloseGateway (pid : ProcessId)
| OpIsAuthenticated (check : bool)
| OpUpdateServerAccount (account_id : PyVal)
| OpSsoValidate
| OpReauthenticate
| OpCheckAuth.

Inductive Result : Type :=
| ResNone
| ResRunning (r : RunningResponse)
| ResStr (s : string)
| ResVal (v : PyVal).

Definition fmap {A B : Type} (f : A -> B) (m : M A) : M B :=
  a <- m ;; ret (f a).

Definition call (w : World) (op : Op) : M Result :=
  match op with
  | OpLogin b => fmap (fun _ => ResNone) (login w b)
  | OpStartupGateway => fmap (fun _ => ResNone) (_startup_gateway w)
  | OpIsAlreadyRunning => fmap ResRunning (_is_already_running w)
  | OpCloseGateway pid => fmap ResStr (close_gateway w pid)
  | OpIsAuthenticated check => fmap ResVal (is_authenticated w check)
  | OpUpdateServerAccount a => fmap ResVal (update_server_account w a)
  | OpSsoValidate => fmap ResVal (sso_validate w)
  | OpReauthenticate => fmap ResVal (reauthenticate w)
  | OpCheckAuth => fmap (fun _ => ResNone) (check_auth w)
  end.

Definition outcome_of {A : Type} (r : Outcome A * Auth * Trace) : Outcome A := fst (fst r).
Definition self_of {A : Type} (r : Outcome A * Auth * Trace) : Auth := snd (fst r).
Definition trace_of {A : Type} (r : Outcome A * Auth * Trace) : Trace := snd r.

(** A caller making the calls [ops] one after the other, going on after a
    call that raised. *)
Fixpoint run_ops (w : World) (ops : list Op) (self : Auth) (t : Trace) : Auth * Trace :=
  match ops with
  | [] => (self, t)
  | op :: rest =>
      let r := call w op self t in
      run_ops w rest (self_of r) (trace_of r)
  end.

(** The endpoints, the subprocesses and the browser windows of a trace. *)
Fixpoint endpoints_of (t : Trace) : list string :=
  match t with
  | [] => []
  | EvRequest _ req :: rest => endpoint req :: endpoints_of rest
  | _ :: rest => endpoints_of rest
  end.

Fixpoint requests_of (t : Trace) : list Request :=
  match t with
  | [] => []
  | EvRequest _ req :: rest => req :: requests_of rest
  | _ :: rest => requests_of rest
  end.

Fixpoint popens_of (t : Trace) : list PopenKwargs :=
  match t with
  | [] => []
  | EvPopen kw :: rest => kw :: popens_of rest
  | _ :: rest => popens_of rest
  end.

Fixpoint webopens_of (t : Trace) : list string :=
  match t with
  | [] => []
  | EvWebOpen url :: rest => url :: webopens_of rest
  | _ :: rest => webopens_of rest
  end.

(** The endpoints of the External Interfaces section. *)
Definition listed_endpoints : list string :=
  ["/api/iserver/auth/status"; "/api/iserver/account";
   "/api/sso/validate"; "/api/iserver/reauthenticate"].

(** [ep] is requested by some sequence of calls in some world. *)
Definition requested (ep : string) : Prop :=
  exists (w : World) (ops : list Op) (self : Auth),
    In ep (endpoints_of (snd (run_ops w ops self []))).

(** ** What [pgrep -f] matches *)

Module Pgrep.

(** The part of POSIX extended regular expressions that the pattern of
    [running_command] uses: ordinary characters, and a character followed
    by a star. *)
Inductive atom : Type :=
| Lit (c : ascii)
| Star (c : ascii).

Fixpoint parse (pattern : string) : list atom :=
  match pattern with
  | EmptyString => []
  | String c rest =>
      match rest with
      | String "*"%char rest' => Star c :: parse rest'
      | _ => Lit c :: parse rest
      end
  end.

(** The atoms match a prefix of [s]. *)
Fixpoint match_here (p : list atom) (s : string) : bool :=
  match p with
  | [] => true
  | Lit c :: p' =>
      match s with
      | String d s' => Ascii.eqb c d && match_here p' s'
      | EmptyString => false
      end
  | Star c :: p' =>
      (fix star (s : string) : bool :=
         match_here p' s ||
         match s with
         | String d s' => Ascii.eqb c d && star s'
         | EmptyString => false
         end) s
  end.

(** The atoms match somewhere in [s]: the pattern is not anchored. *)
Fixpoint search (p : list atom) (s : string) : bool :=
  match_here p s ||
  match s with
  | String _ s' => search p s'
  | EmptyString => false
  end.

(** [pgrep -f pattern] selects a process with this command line. *)
Definition matches (pattern cmdline : string) : bool :=
  search (parse pattern) cmdline.

End Pgrep.

(** The pattern [_is_already_running] hands to [pgrep], and the name
    [_startup_gateway] gives the gateway with [exec -a], both read off the
    commands of a system that is not Windows. *)
Definition pgrep_pattern : string := nth 2 (running_command false) EmptyString.

Definition launch_script : string := nth 2 (args (startup_kwargs false)) EmptyString.

Definition launch_name : string := nth 2 (PyStr.split " " launch_script) EmptyString.

Fixpoint join (sep : string) (l : list string) : string :=
  match l with
  | [] => EmptyString
  | [x] => x
  | x :: rest => x ++ sep ++ join sep rest
  end.

(** The command line of the process that [bash -c "exec -a name prog args"]
    becomes: [name] followed by the arguments. *)
Definition cmdline_of (kw : PopenKwargs) : string :=
  match args kw with
  | ["bash"; "-c"; script] =>
      match PyStr.split " " script with
      | "exec" :: "-a" :: name :: _ :: rest => join " " (name :: rest)
      | _ => script
      end
  | l => join " " l
  end.

(** A system where the only processes are the ones [Popen] started, where
    the process started after [n] events has pid [1000 + n], and where
    [pgrep -f] prints the pids of the processes whose command line matches. *)
Fixpoint pgrep_output (pattern : string) (seen : nat) (t : Trace) : string :=
  match t with
  | [] => EmptyString
  | EvPopen kw :: rest =>
      (if Pgrep.matches pattern (cmdline_of kw)
       then PyStr.of_int (1000 + Z.of_nat seen)%Z ++ LF
       else EmptyString) ++ pgrep_output pattern (S seen) rest
  | _ :: rest => pgrep_output pattern (S seen) rest
  end.

Definition posix_world : World :=
  {| run_stdout := fun t command =>
       match command with
       | ["pgrep"; "-f"; pattern] => pgrep_output pattern 0 t
       | _ => EmptyString
       end;
     popen_pid := fun t _ => (1000 + Z.of_nat (List.length t))%Z;
     make_request := fun _ _ _ => Returned (PyDict [("authenticated", PyBool true)]);
     DictReader := fun _ _ => Returned [] |}.


(** A world whose session is interrupted from the keyboard, one whose
    session answers without the ['authenticated'] key, and one whose
    session says no. *)
Definition interrupted_world : World :=
  {| run_stdout := run_stdout posix_world;
     popen_pid := popen_pid posix_world;
     make_request := fun _ _ _ => Raised KeyboardInterrupt;
     DictReader := DictReader posix_world |}.

Definition keyless_world : World :=
  {| run_stdout := run_stdout posix_world;
     popen_pid := popen_pid posix_world;
     make_request := fun _ _ _ => Returned (PyDict [("error", PyStr "no session")]);
     DictReader := DictReader posix_world |}.

(** A world where every command prints [out]. *)
Definition listing_world (out : string) : World :=
  {| run_stdout := fun _ _ => out;
     popen_pid := popen_pid posix_world;
     make_request := make_request posix_world;
     DictReader := DictReader posix_world |}.

(** The request of [is_authenticated], and what the [try] block of
    [check_auth] gets from it: the session's exception, or the outcome of
    [response['authenticated']]. *)
Definition status_request : Request :=
  {| method := "post"; endpoint := "/api/iserver/auth/status"; json_payload := None |}.

Definition status_check (w : World) (self : Auth) (t : Trace) : Outcome PyVal :=
  match make_request w (t ++ [EvPrint "Checking authentication status..."])
          (session self) status_request with
  | Raised e => Raised e
  | Returned response => Py.getitem response "authenticated"
  end.

(** Which calls assign which attribute. *)
Definition assigns_server_process_id (op : Op) : bool :=
  match op with
  | OpLogin _ | OpStartupGateway | OpIsAlreadyRunning => true
  | _ => false
  end.

Definition assigns_authenticated (op : Op) : bool :=
  match op with
  | OpCheckAuth => true
  | _ => false
  end.

(** ** Vocabulary of the further properties *)

(** [s] holds no line boundary, and [c] is a character of [s]. *)
Fixpoint no_boundary (s : string) : bool :=
  match s with
  | EmptyString => true
  | String c rest => negb (PyStr.is_line_boundary c) && no_boundary rest
  end.

Fixpoint has_char (c : ascii) (s : string) : bool :=
  match s with
  | EmptyString => false
  | String d rest => Ascii.eqb c d || has_char c rest
  end.

(** The text a command prints when it writes [lines] one per line. *)
Fixpoint unlines (lines : list string) : string :=
  match lines with
  | [] => EmptyString
  | l :: rest => l ++ LF ++ unlines rest
  end.

(** [s] between double quotes, as [tasklist /FO CSV] writes a field. *)
Definition quoted (s : string) : string :=
  String double_quote (s ++ String double_quote EmptyString).

(** The header names [_is_already_running] hands to [csv.DictReader]. *)
Definition headers_of (first : string) : list string :=
  PyStr.split "," (PyStr.remove_char double_quote first).

(** A world whose session answers that the user is not authenticated. *)
Definition denying_world : World :=
  {| run_stdout := run_stdout posix_world;
     popen_pid := popen_pid posix_world;
     make_request := fun _ _ _ => Returned (PyDict [("authenticated", PyBool false)]);
     DictReader := DictReader posix_world |}.

(** What a method of the object [self] may ask of its collaborators. *)
Definition allowed_event (self : Auth) (ev : Event) : Prop :=
  match ev with
  | EvPrint msg =>
      msg = "Gateway already running, no need to start back up."
      \/ msg = "Checking authentication status..."
  | EvRun command =>
      command = running_command (is_windows self)
      \/ exists pid, command = close_command (is_windows self) pid
  | EvPopen kwargs => kwargs = startup_kwargs (is_windows self)
  | EvWebOpen url => url = gateway_url
  | EvRequest sess req =>
      sess = session self /\ method req = "post" /\ In (endpoint req) listed_endpoints
  end.

(** A Windows system whose [tasklist] prints [out] and whose CSV reader
    finds the rows [rows]. *)
Definition windows_world (out : string) (rows : Outcome (list CsvRow)) : World :=
  {| run_stdout := fun _ _ => out;
     popen_pid := popen_pid posix_world;
     make_request := make_request posix_world;
     DictReader := fun _ _ => rows |}.

(** * Properties *)

(** ** Evaluation of the string functions *)

Example splitlines_ex1 : PyStr.splitlines ("4242" ++ LF ++ "4250" ++ LF) = ["4242"; "4250"].
Proof. reflexivity. Qed.
Example splitlines_ex2 : PyStr.splitlines ("a" ++ CR ++ LF ++ LF ++ "b") = ["a"; EmptyString; "b"].
Proof. reflexivity. Qed.
Example splitlines_ex3 : PyStr.splitlines LF = [EmptyString].
Proof. reflexivity. Qed.
Example split_ex : PyStr.split "," "a,,b," = ["a"; EmptyString; "b"; EmptyString].
Proof. reflexivity. Qed.
Example of_int_ex : PyStr.of_int 0 = "0" /\ PyStr.of_int 4242 = "4242" /\ PyStr.of_int (-7) = "-7".
Proof. repeat split; reflexivity. Qed.
Example contains_ex : PyStr.contains "INFO:" "x INFO: none" = true /\ PyStr.contains "PID" "I" = false.
Proof. split; reflexivity. Qed.

(** ** Unfolding the monad *)

Ltac unfold_methods :=
  unfold call, login, _startup_gateway, _is_already_running, close_gateway,
    is_authenticated, update_server_account, sso_validate, reauthenticate,
    check_auth, status_check, status_request in *.

Ltac unfold_monad :=
  unfold try_except_Exception, subprocess_run, subprocess_Popen,
    session_make_request, fmap, bind, ret, raise, lift, get_self, put_self,
    print, webbrowser_open, emit, outcome_of, self_of, trace_of in *.

(** Case analysis on whatever the goal still branches on, innermost
    scrutinee first. *)
Ltac split_branch :=
  match goal with
  | |- context [match ?x with _ => _ end] =>
      lazymatch x with
      | context [match _ with _ => _ end] => fail
      | _ => destruct x eqn:?; cbn
      end
  end.

Ltac split_branches := repeat split_branch.

Ltac run_method := unfold_methods; unfold_monad; cbn; split_branches.

Lemma splitlines_nonempty (s : string) :
  s <> EmptyString -> exists first rest, PyStr.splitlines s = first :: rest.
Proof.
  destruct s as [|c rest]; [congruence|]. intros _. cbn.
  destruct (PyStr.is_line_boundary c).
  - eauto.
  - destruct (PyStr.splitlines rest); eauto.
Qed.

Lemma split_nonempty (c : ascii) (s : string) : PyStr.split c s <> [].
Proof.
  destruct s as [|d rest]; cbn; [congruence|].
  destruct (Ascii.eqb c d); [congruence|].
  destruct (PyStr.split c rest); congruence.
Qed.

(** ** Traces grow at the end *)

Lemma _is_already_running_trace (w : World) (self : Auth) (t : Trace) :
  trace_of (_is_already_running w self t) = t ++ [EvRun (running_command (is_windows self))].
Proof. run_method; reflexivity. Qed.

Lemma _is_already_running_self (w : World) (self : Auth) (t : Trace) :
  let self' := self_of (_is_already_running w self t) in
  self' = self \/ exists pid, self' = set_server_process_id pid self.
Proof. run_method; eauto. Qed.

Lemma popens_of_app (t1 t2 : Trace) : popens_of (t1 ++ t2) = popens_of t1 ++ popens_of t2.
Proof.
  induction t1 as [|e t1 IH]; cbn; [reflexivity|].
  destruct e; cbn; rewrite IH; reflexivity.
Qed.

Lemma webopens_of_app (t1 t2 : Trace) : webopens_of (t1 ++ t2) = webopens_of t1 ++ webopens_of t2.
Proof.
  induction t1 as [|e t1 IH]; cbn; [reflexivity|].
  destruct e; cbn; rewrite IH; reflexivity.
Qed.

Lemma endpoints_of_app (t1 t2 : Trace) : endpoints_of (t1 ++ t2) = endpoints_of t1 ++ endpoints_of t2.
Proof.
  induction t1 as [|e t1 IH]; cbn; [reflexivity|].
  destruct e; cbn; rewrite IH; reflexivity.
Qed.

(** ** login *)

(** C1. Whatever the world answers: when [_is_already_running] returns a
    response whose ['is_running'] is false, [login] starts the gateway with
    one [Popen], stores its pid and opens the browser at
    https://localhost:5000; when ['is_running'] is true, [login] only prints
    its message; so [login] adds a subprocess and a browser window exactly
    when no gateway was reported. *)
Theorem login_launches_only_when_not_running
    (w : World) (_use_selenium : bool) (self self1 : Auth) (t t1 : Trace)
    (r : RunningResponse) :
  _is_already_running w self t = (Returned r, self1, t1) ->
  (login w _use_selenium self t =
     if is_running r then
       (Returned tt, self1,
        t1 ++ [EvPrint "Gateway already running, no need to start back up."])
     else
       (Returned tt,
        set_server_process_id
          (PidInt (popen_pid w t1 (startup_kwargs (is_windows self)))) self1,
        t1 ++ [EvPopen (startup_kwargs (is_windows self)); EvWebOpen gateway_url]))
  /\ popens_of (trace_of (login w _use_selenium self t)) =
       popens_of t ++ (if is_running r then [] else [startup_kwargs (is_windows self)])
  /\ webopens_of (trace_of (login w _use_selenium self t)) =
       webopens_of t ++ (if is_running r then [] else [gateway_url]).
Proof.
  intros Hrun.
  assert (Ht1 : t1 = t ++ [EvRun (running_command (is_windows self))]).
  { rewrite <- (_is_already_running_trace w self t), Hrun. reflexivity. }
  assert (Hwin : is_windows self1 = is_windows self).
  { destruct (_is_already_running_self w self t) as [H | [pid H]];
      rewrite Hrun in H; cbn in H; subst self1; reflexivity. }
  assert (Hlogin : login w _use_selenium self t =
     if is_running r then
       (Returned tt, self1,
        t1 ++ [EvPrint "Gateway already running, no need to start back up."])
     else
       (Returned tt,
        set_server_process_id
          (PidInt (popen_pid w t1 (startup_kwargs (is_windows self)))) self1,
        t1 ++ [EvPopen (startup_kwargs (is_windows self)); EvWebOpen gateway_url])).
  { unfold login, bind at 1. rewrite Hrun.
    destruct (is_running r); cbn.
    - reflexivity.
    - unfold _startup_gateway. unfold_monad. cbn.
      rewrite Hwin, <- app_assoc. reflexivity. }
  split; [exact Hlogin|].
  rewrite Hlogin, Ht1.
  destruct (is_running r); unfold trace_of; cbn;
    rewrite !popens_of_app, !webopens_of_app; cbn;
    rewrite ?app_nil_r; split; reflexivity.
Qed.

Lemma login_launches_only_when_not_running_witness :
  login posix_world false (init "posix" 1 2) [] =
    (Returned tt,
     set_server_process_id (PidInt 1001) (init "posix" 1 2),
     [EvRun ["pgrep"; "-f"; "Interactive Brokers Python API*"];
      EvPopen (startup_kwargs false); EvWebOpen "https://localhost:5000"]).
Proof.
  apply (login_launches_only_when_not_running posix_world false (init "posix" 1 2)
           (init "posix" 1 2) [] [EvRun ["pgrep"; "-f"; "Interactive Brokers Python API*"]]
           {| is_running := false; data := DataStr no_tasks_message |}).
  reflexivity.
Defined.

(** ** _is_already_running *)



(** ** The forwarding methods *)

(** C3. Each forwarding method adds exactly one event to the trace, a POST
    through the session of [self], and hands back the session's outcome as
    it is, an exception included: [is_authenticated] to
    /api/iserver/auth/status, [reauthenticate] to
    /api/iserver/reauthenticate, [sso_validate] to /api/sso/validate, all
    three without payload, and [update_server_account] to
    /api/iserver/account with the payload [{'acctId': account_id}]. *)
Theorem forwarding_is_one_post
    (w : World) (check : bool) (account_id : PyVal) (self : Auth) (t : Trace) :
  let post ep payload := {| method := "post"; endpoint := ep; json_payload := payload |} in
  let forwarded req :=
    (make_request w t (session self) req, self, t ++ [EvRequest (session self) req]) in
  is_authenticated w check self t = forwarded (post "/api/iserver/auth/status" None)
  /\ reauthenticate w self t = forwarded (post "/api/iserver/reauthenticate" None)
  /\ sso_validate w self t = forwarded (post "/api/sso/validate" None)
  /\ update_server_account w account_id self t =
       forwarded (post "/api/iserver/account" (Some (PyDict [("acctId", account_id)]))).
Proof.
  cbn zeta.
  unfold is_authenticated, reauthenticate, sso_validate, update_server_account.
  unfold_monad.
  repeat split;
    match goal with
    | |- context [make_request ?w ?t ?s ?r] => destruct (make_request w t s r); reflexivity
    end.
Qed.

(** C9. [is_authenticated] does not look at [check]: from the same state
    and trace, any two values of [check] give the same request, the same
    result and the same state. *)
Theorem is_authenticated_ignores_check
    (w : World) (check1 check2 : bool) (self : Auth) (t : Trace) :
  is_authenticated w check1 self t = is_authenticated w check2 self t
  /\ requests_of (trace_of (is_authenticated w true self t)) =
     requests_of (trace_of (is_authenticated w false self t))
  /\ outcome_of (is_authenticated w true self t) =
     outcome_of (is_authenticated w false self t).
Proof. repeat split. Qed.

(** ** close_gateway *)


(** ** check_auth *)

Lemma getitem_raises_Exception (v : PyVal) (key : string) (e : PyExc) :
  Py.getitem v key = Raised e -> isinstance_Exception e = true.
Proof.
  destruct v; cbn; try (intros H; injection H as <-; reflexivity).
  destruct (Py.dict_get items key); intros H;
    [discriminate | injection H as <-; reflexivity].
Qed.

Lemma check_auth_unfolded (w : World) (self : Auth) (t : Trace) :
  let t2 := t ++ [EvPrint "Checking authentication status..."]
              ++ [EvRequest (session self) status_request] in
  check_auth w self t =
    match status_check w self t with
    | Returned flag =>
        (Returned tt, if Py.eq_True flag then set_authenticated true self else self, t2)
    | Raised e =>
        (if isinstance_Exception e then Returned tt else Raised e, self, t2)
    end.
Proof.
  cbn zeta. rewrite app_assoc. run_method; reflexivity.
Qed.

(** C4, as the code has it: the session is interrupted from the keyboard
    while [check_auth] waits for it, and [check_auth] lets the
    [KeyboardInterrupt] through. *)
Lemma check_auth_propagates_KeyboardInterrupt :
  check_auth interrupted_world (init "posix" 1 2) [] =
    (Raised KeyboardInterrupt, init "posix" 1 2,
     [EvPrint "Checking authentication status..."; EvRequest 2 status_request])
  /\ raises (outcome_of (check_auth interrupted_world (init "posix" 1 2) [])) = true.
Proof. split; reflexivity. Qed.

(** C4, amended. [check_auth] swallows every exception of the status check
    that is an instance of [Exception], those of [make_request] and those of
    [response['authenticated']] alike: what it lets through was raised by
    the session and derives from [BaseException] only. Whenever the status
    check raises, swallowed or not, [self] and so [authenticated] stay as
    they were. *)
Theorem check_auth_swallows_Exception (w : World) (self : Auth) (t : Trace) :
  (forall e, outcome_of (check_auth w self t) = Raised e ->
     isinstance_Exception e = false /\
     make_request w (t ++ [EvPrint "Checking authentication status..."])
       (session self) status_request = Raised e)
  /\ (forall e, status_check w self t = Raised e ->
        self_of (check_auth w self t) = self /\
        authenticated (self_of (check_auth w self t)) = authenticated self /\
        outcome_of (check_auth w self t) =
          if isinstance_Exception e then Returned tt else Raised e).
Proof.
  pose proof (check_auth_unfolded w self t) as Hc. cbn zeta in Hc.
  split.
  - intros e. rewrite Hc. unfold status_check.
    destruct (make_request w _ (session self) status_request) as [response | e0]; cbn.
    + destruct (Py.getitem response "authenticated") as [flag | e1] eqn:Hget; cbn.
      * discriminate.
      * rewrite (getitem_raises_Exception _ _ _ Hget). discriminate.
    + destruct (isinstance_Exception e0) eqn:Hinst; cbn; [discriminate|].
      intros H. injection H as <-. split; [exact Hinst | reflexivity].
  - intros e He. rewrite Hc, He. cbn. repeat split.
Qed.

Lemma check_auth_swallows_Exception_witness :
  self_of (check_auth keyless_world (init "posix" 1 2) []) = init "posix" 1 2
  /\ authenticated (self_of (check_auth keyless_world (init "posix" 1 2) [])) = false
  /\ outcome_of (check_auth keyless_world (init "posix" 1 2) []) = Returned tt.
Proof.
  exact (proj2 (check_auth_swallows_Exception keyless_world (init "posix" 1 2) [])
           (KeyError "authenticated") eq_refl).
Defined.

(** ** What a call may assign *)

Lemma call_frame (w : World) (op : Op) (self : Auth) (t : Trace) :
  let self' := self_of (call w op self t) in
  client self' = client self
  /\ session self' = session self
  /\ is_windows self' = is_windows self
  /\ (assigns_server_process_id op = false ->
      server_process_id self' = server_process_id self)
  /\ (assigns_authenticated op = false -> authenticated self' = authenticated self).
Proof.
  destruct op; cbn zeta; run_method; repeat split; intros; cbn in *; congruence.
Qed.

Lemma run_ops_frame (w : World) (ops : list Op) :
  forall (self : Auth) (t : Trace),
    let self' := fst (run_ops w ops self t) in
    client self' = client self
    /\ session self' = session self
    /\ is_windows self' = is_windows self.
Proof.
  induction ops as [|op ops IH]; intros self t; cbn.
  - repeat split.
  - destruct (IH (self_of (call w op self t)) (trace_of (call w op self t)))
      as (Hc & Hs & Hw).
    destruct (call_frame w op self t) as (Hc' & Hs' & Hw' & _).
    cbn zeta in *. repeat split; congruence.
Qed.

(** C7. Every call leaves [client], [session] and [is_windows] as they
    were, and so does every sequence of calls; [server_process_id] is left
    alone by every call but [login], [_startup_gateway] and
    [_is_already_running], and [authenticated] by every call but
    [check_auth]. *)
Theorem calls_assign_only_pid_and_authenticated
    (w : World) (op : Op) (ops : list Op) (self : Auth) (t : Trace) :
  let self' := self_of (call w op self t) in
  let self'' := fst (run_ops w ops self t) in
  (client self' = client self /\ session self' = session self
   /\ is_windows self' = is_windows self)
  /\ (client self'' = client self /\ session self'' = session self
      /\ is_windows self'' = is_windows self)
  /\ (assigns_server_process_id op = false ->
      server_process_id self' = server_process_id self)
  /\ (assigns_authenticated op = false -> authenticated self' = authenticated self).
Proof.
  cbn zeta.
  destruct (call_frame w op self t) as (Hc & Hs & Hw & Hpid & Hauth).
  pose proof (run_ops_frame w ops self t) as Hops.
  cbn zeta in *. repeat split; try tauto; assumption.
Qed.

Lemma calls_assign_only_pid_and_authenticated_witness :
  server_process_id
    (self_of (call posix_world (OpCloseGateway (PidInt 7))
                (set_server_process_id (PidStr "4242") (init "posix" 1 2)) [])) =
    PidStr "4242"
  /\ authenticated (self_of (call posix_world (OpCloseGateway (PidInt 7))
                (set_server_process_id (PidStr "4242") (init "posix" 1 2)) [])) = false.
Proof.
  destruct (calls_assign_only_pid_and_authenticated posix_world (OpCloseGateway (PidInt 7)) []
              (set_server_process_id (PidStr "4242") (init "posix" 1 2)) [])
    as (_ & _ & Hpid & Hauth).
  split; [exact (Hpid eq_refl) | exact (Hauth eq_refl)].
Defined.

(** ** The authenticated flag *)

Lemma check_auth_authenticated (w : World) (self : Auth) (t : Trace) :
  authenticated (self_of (check_auth w self t)) =
    authenticated self ||
    match status_check w self t with
    | Returned flag => Py.eq_True flag
    | Raised _ => false
    end.
Proof.
  pose proof (check_auth_unfolded w self t) as Hc. cbn zeta in Hc. rewrite Hc.
  destruct (status_check w self t) as [flag | e]; cbn.
  - destruct (Py.eq_True flag); cbn; [rewrite orb_true_r | rewrite orb_false_r]; reflexivity.
  - rewrite orb_false_r. reflexivity.
Qed.

Lemma call_keeps_authenticated (w : World) (op : Op) (self : Auth) (t : Trace) :
  authenticated self = true -> authenticated (self_of (call w op self t)) = true.
Proof.
  intros Hauth. destruct (assigns_authenticated op) eqn:Hop.
  - destruct op; try discriminate.
    assert (H : self_of (call w OpCheckAuth self t) = self_of (check_auth w self t)).
    { unfold call, fmap, bind, ret, self_of.
      destruct (check_auth w self t) as [[[u | e] self'] t']; reflexivity. }
    rewrite H, check_auth_authenticated, Hauth. reflexivity.
  - destruct (call_frame w op self t) as (_ & _ & _ & _ & H).
    cbn zeta in H. rewrite (H Hop). exact Hauth.
Qed.

Lemma run_ops_keeps_authenticated (w : World) (ops : list Op) :
  forall (self : Auth) (t : Trace),
    authenticated self = true -> authenticated (fst (run_ops w ops self t)) = true.
Proof.
  induction ops as [|op ops IH]; intros self t Hauth; cbn.
  - exact Hauth.
  - apply IH, call_keeps_authenticated, Hauth.
Qed.

(** C8. [__init__] sets [authenticated] to [False]; a call other than
    [check_auth] leaves it as it is; [check_auth] leaves it as it is or sets
    it to [True], the latter exactly when the status response has an
    ['authenticated'] entry equal to [True]; so once [True] it stays [True]
    through every sequence of calls. *)
Theorem authenticated_is_monotone
    (w : World) (os_name : string) (ib_client ib_session : ObjRef)
    (op : Op) (ops : list Op) (self : Auth) (t : Trace) :
  authenticated (init os_name ib_client ib_session) = false
  /\ (assigns_authenticated op = false ->
      authenticated (self_of (call w op self t)) = authenticated self)
  /\ authenticated (self_of (check_auth w self t)) =
       authenticated self ||
       match status_check w self t with
       | Returned flag => Py.eq_True flag
       | Raised _ => false
       end
  /\ (authenticated self = true -> authenticated (self_of (call w op self t)) = true)
  /\ (authenticated self = true -> authenticated (fst (run_ops w ops self t)) = true).
Proof.
  split; [reflexivity|].
  split; [apply (call_frame w op self t)|].
  split; [apply check_auth_authenticated|].
  split; [apply call_keeps_authenticated | apply run_ops_keeps_authenticated].
Qed.

Lemma authenticated_is_monotone_witness :
  authenticated
    (fst (run_ops keyless_world [OpCheckAuth; OpLogin false; OpCloseGateway PidNone]
            (self_of (check_auth posix_world (init "posix" 1 2) [])) [])) = true.
Proof.
  destruct (authenticated_is_monotone keyless_world "posix" 1 2 OpCheckAuth
              [OpCheckAuth; OpLogin false; OpCloseGateway PidNone]
              (self_of (check_auth posix_world (init "posix" 1 2) [])) [])
    as (_ & _ & _ & _ & H).
  exact (H eq_refl).
Defined.

(** ** The endpoints *)

Lemma call_endpoints (w : World) (op : Op) (self : Auth) (t : Trace) (ep : string) :
  In ep (endpoints_of (trace_of (call w op self t))) ->
  In ep (endpoints_of t) \/ In ep listed_endpoints.
Proof.
  destruct op; run_method; rewrite ?endpoints_of_app; cbn;
    rewrite ?app_nil_r, ?in_app_iff; cbn; tauto.
Qed.

Lemma run_ops_endpoints (w : World) (ops : list Op) (ep : string) :
  forall (self : Auth) (t : Trace),
    In ep (endpoints_of (snd (run_ops w ops self t))) ->
    In ep (endpoints_of t) \/ In ep listed_endpoints.
Proof.
  induction ops as [|op ops IH]; intros self t; cbn.
  - tauto.
  - intros H. apply IH in H. destruct H as [H | H]; [|tauto].
    apply call_endpoints in H. exact H.
Qed.

Lemma listed_endpoints_requested (ep : string) : In ep listed_endpoints -> requested ep.
Proof.
  intros H. exists posix_world.
  cbn in H. destruct H as [<- | [<- | [<- | [<- | []]]]].
  - exists [OpIsAuthenticated false], (init "posix" 1 2). cbn. auto.
  - exists [OpUpdateServerAccount (PyStr "U1234567")], (init "posix" 1 2). cbn. auto.
  - exists [OpSsoValidate], (init "posix" 1 2). cbn. auto.
  - exists [OpReauthenticate], (init "posix" 1 2). cbn. auto.
Qed.

(** C5, as the code has it: the endpoints that get requested are not two;
    no two endpoints cover them. *)
Lemma requested_endpoints_are_not_two :
  ~ (exists a b : string, forall ep, requested ep -> ep = a \/ ep = b).
Proof.
  intros (a & b & H).
  pose proof (H _ (listed_endpoints_requested "/api/iserver/auth/status" ltac:(cbn; auto))) as H1.
  pose proof (H _ (listed_endpoints_requested "/api/iserver/account" ltac:(cbn; auto))) as H2.
  pose proof (H _ (listed_endpoints_requested "/api/sso/validate" ltac:(cbn; auto))) as H3.
  destruct H1 as [<- | <-], H2 as [H2 | H2], H3 as [H3 | H3];
    try discriminate; subst; discriminate.
Qed.

(** C5, amended. The endpoints requested over all sequences of calls are
    exactly the four listed ones, /api/iserver/auth/status,
    /api/iserver/account, /api/sso/validate and /api/iserver/reauthenticate,
    which are pairwise different; whatever the trace was before, a sequence
    of calls adds no request to any other endpoint. *)
Theorem requested_endpoints_are_the_four_listed :
  (forall ep, requested ep <-> In ep listed_endpoints)
  /\ NoDup listed_endpoints
  /\ List.length listed_endpoints = 4
  /\ (forall (w : World) (ops : list Op) (self : Auth) (t : Trace) (ep : string),
        In ep (endpoints_of (snd (run_ops w ops self t))) ->
        In ep (endpoints_of t) \/ In ep listed_endpoints).
Proof.
  split; [|split; [|split]].
  - intros ep. split.
    + intros (w & ops & self & H). apply run_ops_endpoints in H. destruct H as [[] | H]. exact H.
    + apply listed_endpoints_requested.
  - unfold listed_endpoints.
    repeat (constructor; [cbn; intros H; repeat (destruct H as [H | H]; [discriminate|]); exact H|]).
    constructor.
  - reflexivity.
  - intros w ops self t ep. apply run_ops_endpoints.
Qed.

(** ** Finding the gateway again *)

(** C2, as the code has it: the pattern handed to [pgrep -f] is written
    with spaces and the name given with [exec -a] with underscores, so the
    pattern selects neither the name nor the command line of the gateway
    that [_startup_gateway] started, though it selects the name written with
    spaces; in a system whose only processes are the started ones, the
    second [login] starts a second gateway. *)
Theorem pgrep_pattern_misses_launch_name :
  pgrep_pattern = "Interactive Brokers Python API*"
  /\ launch_name = "Interactive_Brokers_Python_API"
  /\ Pgrep.matches pgrep_pattern launch_name = false
  /\ Pgrep.matches pgrep_pattern (cmdline_of (startup_kwargs false)) = false
  /\ Pgrep.matches pgrep_pattern "Interactive Brokers Python API" = true
  /\ popens_of (snd (run_ops posix_world [OpLogin false; OpLogin false]
                       (init "posix" 1 2) [])) =
       [startup_kwargs false; startup_kwargs false].
Proof. repeat split; vm_compute; reflexivity. Qed.

(** * Further properties *)

(** ** _is_already_running on Windows *)

Lemma contains_PID_one_char (c : ascii) :
  PyStr.contains "PID" (String c EmptyString) = false.
Proof.
  cbn -[ascii_dec]. destruct (ascii_dec "P" c); reflexivity.
Qed.

Lemma contains_nonempty (needle s : string) :
  needle <> EmptyString -> PyStr.contains needle s = true -> s <> EmptyString.
Proof.
  intros Hneedle H ->. destruct needle; [congruence | discriminate].
Qed.

(** X1. On Windows, when the output of [tasklist] holds the text INFO:,
    [_is_already_running] reports that nothing runs, whatever else the
    output holds: it returns the output as data, raises nothing and leaves
    [self] alone. *)
Theorem _is_already_running_tasklist_info (w : World) (self : Auth) (t : Trace) :
  is_windows self = true ->
  PyStr.contains "INFO:" (run_stdout w t (running_command true)) = true ->
  _is_already_running w self t =
    (Returned {| is_running := false;
                 data := DataStr (run_stdout w t (running_command true)) |},
     self, t ++ [EvRun (running_command true)]).
Proof.
  intros Hwin Hinfo.
  unfold _is_already_running. unfold_monad.
  cbn -[running_command PyStr.contains]. rewrite Hwin.
  cbn -[running_command PyStr.contains]. rewrite Hinfo.
  destruct (run_stdout w t (running_command true)) as [|c rest].
  - discriminate.
  - cbn -[running_command PyStr.contains].
    rewrite contains_PID_one_char. reflexivity.
Qed.

Lemma _is_already_running_tasklist_info_witness :
  _is_already_running (windows_world no_tasks_message (Returned [])) (init "nt" 1 2) [] =
    (Returned {| is_running := false; data := DataStr no_tasks_message |},
     init "nt" 1 2, [EvRun (running_command true)]).
Proof.
  exact (_is_already_running_tasklist_info (windows_world no_tasks_message (Returned []))
           (init "nt" 1 2) [] eq_refl eq_refl).
Defined.

(** X2. On Windows, when the output of [tasklist] has no INFO: and the CSV
    reader finds at least one row under the header names of the first line,
    the first row decides: with a PID entry, a gateway is reported and
    [server_process_id] becomes that entry ([None] for a row too short to
    reach the column); without one, nothing is reported and [self] is left
    alone. The rows are the data in both cases. *)
Theorem _is_already_running_tasklist_rows
    (w : World) (self : Auth) (t : Trace) (first : string) (rest : list string)
    (row : CsvRow) (rows : list CsvRow) :
  is_windows self = true ->
  PyStr.contains "INFO:" (run_stdout w t (running_command true)) = false ->
  PyStr.splitlines (run_stdout w t (running_command true)) = first :: rest ->
  DictReader w rest (headers_of first) = Returned (row :: rows) ->
  _is_already_running w self t =
    match row_get row "PID" with
    | Some entry =>
        (Returned {| is_running := true; data := DataRows (row :: rows) |},
         set_server_process_id
           (match entry with Some pid => PidStr pid | None => PidNone end) self,
         t ++ [EvRun (running_command true)])
    | None =>
        (Returned {| is_running := false; data := DataRows (row :: rows) |},
         self, t ++ [EvRun (running_command true)])
    end.
Proof.
  intros Hwin Hinfo Hlines Hrows.
  unfold headers_of in Hrows.
  unfold _is_already_running. unfold_monad.
  cbn -[running_command PyStr.contains double_quote]. rewrite Hwin.
  cbn -[running_command PyStr.contains double_quote]. rewrite Hinfo, Hlines.
  cbn -[running_command double_quote]. rewrite Hrows. cbn.
  destruct (row_get row "PID") as [[pid|]|]; reflexivity.
Qed.

Lemma _is_already_running_tasklist_rows_witness :
  _is_already_running
    (windows_world (quoted "Image Name" ++ "," ++ quoted "PID" ++ LF ++ quoted "cmd.exe" ++ "," ++ quoted "5120" ++ LF)
       (Returned [[("Image Name", Some "cmd.exe"); ("PID", Some "5120")]]))
    (init "nt" 1 2) [] =
    (Returned {| is_running := true;
                 data := DataRows [[("Image Name", Some "cmd.exe"); ("PID", Some "5120")]] |},
     set_server_process_id (PidStr "5120") (init "nt" 1 2),
     [EvRun (running_command true)]).
Proof.
  exact (_is_already_running_tasklist_rows
           (windows_world (quoted "Image Name" ++ "," ++ quoted "PID" ++ LF ++ quoted "cmd.exe" ++ "," ++ quoted "5120" ++ LF)
              (Returned [[("Image Name", Some "cmd.exe"); ("PID", Some "5120")]]))
           (init "nt" 1 2) [] _ _ _ _ eq_refl eq_refl eq_refl eq_refl).
Defined.

Lemma _is_already_running_tasklist (w : World) (self : Auth) (t : Trace) :
  is_windows self = true ->
  let content := run_stdout w t (running_command true) in
  let t1 := t ++ [EvRun (running_command true)] in
  _is_already_running w self t =
    if PyStr.contains "INFO:" content then
      (Returned {| is_running := false; data := DataStr content |}, self, t1)
    else
      match PyStr.splitlines content with
      | [] => (Raised IndexError, self, t1)
      | first :: rest =>
          match DictReader w rest (headers_of first) with
          | Raised e => (Raised e, self, t1)
          | Returned [] => (Raised IndexError, self, t1)
          | Returned (row :: rows) =>
              match row_get row "PID" with
              | Some entry =>
                  (Returned {| is_running := true; data := DataRows (row :: rows) |},
                   set_server_process_id
                     (match entry with Some pid => PidStr pid | None => PidNone end) self,
                   t1)
              | None =>
                  (Returned {| is_running := false; data := DataRows (row :: rows) |},
                   self, t1)
              end
          end
      end.
Proof.
  intros Hwin content t1. subst content t1. unfold headers_of.
  unfold _is_already_running. unfold_monad.
  cbn -[running_command PyStr.contains double_quote]. rewrite Hwin.
  cbn -[running_command PyStr.contains double_quote].
  destruct (PyStr.contains "INFO:" (run_stdout w t (running_command true))) eqn:Hinfo.
  - destruct (run_stdout w t (running_command true)) as [|c rest].
    + discriminate.
    + cbn -[running_command PyStr.contains].
      rewrite contains_PID_one_char. reflexivity.
  - destruct (PyStr.splitlines (run_stdout w t (running_command true))) as [|first rest].
    + reflexivity.
    + cbn -[running_command double_quote].
      destruct (DictReader w rest _) as [[|row rows] | e]; cbn; try reflexivity.
      destruct (row_get row "PID") as [[pid|]|]; reflexivity.
Qed.

Lemma _is_already_running_posix (w : World) (self : Auth) (t : Trace) :
  is_windows self = false ->
  let content := run_stdout w t (running_command false) in
  let t1 := t ++ [EvRun (running_command false)] in
  _is_already_running w self t =
    if String.eqb content EmptyString then
      (Returned {| is_running := false; data := DataStr no_tasks_message |}, self, t1)
    else
      (Returned {| is_running := true; data := DataLines (PyStr.splitlines content) |},
       set_server_process_id (PidStr (hd EmptyString (PyStr.splitlines content))) self, t1).
Proof.
  intros Hwin content t1. subst content t1.
  unfold _is_already_running. unfold_monad.
  cbn -[running_command]. rewrite Hwin. cbn -[running_command].
  destruct (String.eqb_spec (run_stdout w t (running_command false)) EmptyString)
    as [Hempty | Hsome].
  - reflexivity.
  - destruct (splitlines_nonempty _ Hsome) as (first & rest & ->). reflexivity.
Qed.

Lemma _is_already_running_failure_self
    (w : World) (self : Auth) (t : Trace) (e : PyExc) :
  outcome_of (_is_already_running w self t) = Raised e ->
  self_of (_is_already_running w self t) = self.
Proof.
  destruct (is_windows self) eqn:Hwin.
  - pose proof (_is_already_running_tasklist w self t Hwin) as H. cbn zeta in H.
    rewrite H. clear H.
    destruct (PyStr.contains "INFO:" _); [discriminate|].
    destruct (PyStr.splitlines _) as [|first rest]; [reflexivity|].
    destruct (DictReader w rest (headers_of first)) as [[|row rows] | e']; try reflexivity.
    destruct (row_get row "PID"); discriminate.
  - pose proof (_is_already_running_posix w self t Hwin) as H. cbn zeta in H.
    rewrite H. destruct (String.eqb _ _); discriminate.
Qed.



(** ** login as a whole *)

(** X4. When [_is_already_running] raises, [login] raises the same
    exception at once: it starts no subprocess, opens no browser and leaves
    [self] as it was before the call. *)
Theorem login_propagates_failure
    (w : World) (_use_selenium : bool) (self : Auth) (t : Trace) (e : PyExc) :
  outcome_of (_is_already_running w self t) = Raised e ->
  login w _use_selenium self t =
    (Raised e, self, t ++ [EvRun (running_command (is_windows self))])
  /\ popens_of (trace_of (login w _use_selenium self t)) = popens_of t
  /\ webopens_of (trace_of (login w _use_selenium self t)) = webopens_of t.
Proof.
  intros Hraise.
  pose proof (_is_already_running_trace w self t) as Htrace.
  pose proof (_is_already_running_failure_self w self t e Hraise) as Hself.
  assert (Hlogin : login w _use_selenium self t =
            (Raised e, self, t ++ [EvRun (running_command (is_windows self))])).
  { unfold login, bind.
    destruct (_is_already_running w self t) as [[o self1] t1].
    unfold outcome_of, self_of, trace_of in *. cbn in *. subst. reflexivity. }
  split; [exact Hlogin|]. rewrite Hlogin. unfold trace_of. cbn.
  rewrite popens_of_app, webopens_of_app. cbn. rewrite !app_nil_r. split; reflexivity.
Qed.

Lemma login_propagates_failure_witness :
  login (windows_world EmptyString (Returned [])) false (init "nt" 1 2) [] =
    (Raised IndexError, init "nt" 1 2, [EvRun (running_command true)]).
Proof.
  exact (proj1 (login_propagates_failure (windows_world EmptyString (Returned []))
                  false (init "nt" 1 2) [] IndexError eq_refl)).
Defined.

Lemma login_posix_unfolded
    (w : World) (_use_selenium : bool) (self : Auth) (t : Trace) :
  is_windows self = false ->
  let content := run_stdout w t (running_command false) in
  let t1 := t ++ [EvRun (running_command false)] in
  login w _use_selenium self t =
    if String.eqb content EmptyString then
      (Returned tt,
       set_server_process_id (PidInt (popen_pid w t1 (startup_kwargs false))) self,
       t1 ++ [EvPopen (startup_kwargs false); EvWebOpen gateway_url])
    else
      (Returned tt,
       set_server_process_id (PidStr (hd EmptyString (PyStr.splitlines content))) self,
       t1 ++ [EvPrint "Gateway already running, no need to start back up."]).
Proof.
  intros Hwin content t1.
  pose proof (_is_already_running_posix w self t Hwin) as Hrun. cbn zeta in Hrun.
  fold content t1 in Hrun.
  unfold login, bind at 1. rewrite Hrun.
  destruct (String.eqb content EmptyString); cbn -[running_command startup_kwargs].
  - unfold _startup_gateway. unfold_monad. cbn -[running_command startup_kwargs].
    rewrite Hwin, <- app_assoc. reflexivity.
  - reflexivity.
Qed.



(** ** login followed by close_gateway *)

(** X6. Where the system is not Windows, [close_gateway()] after [login]
    kills what [login] found or started: it runs [kill -9] on the decimal
    text of the pid of [Popen] when [login] started the gateway, and on the
    first line of the output of [pgrep] when [login] found one running. *)
Theorem login_then_close_gateway_posix
    (w : World) (_use_selenium : bool) (self : Auth) (t : Trace) :
  is_windows self = false ->
  let content := run_stdout w t (running_command false) in
  let t1 := t ++ [EvRun (running_command false)] in
  let after := login w _use_selenium self t in
  let target :=
    if String.eqb content EmptyString
    then PyStr.of_int (popen_pid w t1 (startup_kwargs false))
    else hd EmptyString (PyStr.splitlines content) in
  close_gateway w PidNone (self_of after) (trace_of after) =
    (Returned (run_stdout w (trace_of after) ["kill"; "-9"; target]),
     self_of after, trace_of after ++ [EvRun ["kill"; "-9"; target]]).
Proof.
  intros Hwin content t1 after target. subst after target.
  pose proof (login_posix_unfolded w _use_selenium self t Hwin) as H. cbn zeta in H.
  fold content t1 in H. rewrite H.
  unfold close_gateway, close_command. unfold_monad.
  destruct (String.eqb content EmptyString); cbn -[running_command startup_kwargs];
    rewrite Hwin; reflexivity.
Qed.

Lemma login_then_close_gateway_posix_witness :
  trace_of
    (close_gateway posix_world PidNone
       (self_of (login posix_world false (init "posix" 1 2) []))
       (trace_of (login posix_world false (init "posix" 1 2) []))) =
    [EvRun (running_command false); EvPopen (startup_kwargs false);
     EvWebOpen gateway_url; EvRun ["kill"; "-9"; "1001"]].
Proof.
  exact (f_equal trace_of
           (login_then_close_gateway_posix posix_world false (init "posix" 1 2) [] eq_refl)).
Defined.

(** X7. [close_gateway] does not forget the process it closed: after
    [close_gateway()] the stored process id is the same, so a second
    [close_gateway()] runs the same command on the same process id once
    more. *)
Theorem close_gateway_twice (w : World) (self : Auth) (t : Trace) :
  let command := close_command (is_windows self) (server_process_id self) in
  let once := close_gateway w PidNone self t in
  let twice := close_gateway w PidNone (self_of once) (trace_of once) in
  server_process_id (self_of once) = server_process_id self
  /\ self_of twice = self
  /\ trace_of twice = t ++ [EvRun command; EvRun command].
Proof.
  cbn zeta. unfold close_gateway. unfold_monad. cbn.
  rewrite <- app_assoc. repeat split.
Qed.

(** ** The text of the commands *)

Lemma splitlines_line (l rest : string) :
  no_boundary l = true ->
  PyStr.splitlines (l ++ LF ++ rest) = l :: PyStr.splitlines rest.
Proof.
  induction l as [|c l IH]; intros Hl.
  - destruct rest; reflexivity.
  - cbn in Hl. apply andb_true_iff in Hl. destruct Hl as [Hc Hl].
    apply negb_true_iff in Hc.
    change (String c l ++ LF ++ rest)%string with (String c (l ++ LF ++ rest)%string).
    cbn [PyStr.splitlines]. rewrite Hc, (IH Hl). reflexivity.
Qed.

Lemma splitlines_unlines (lines : list string) :
  forallb no_boundary lines = true -> PyStr.splitlines (unlines lines) = lines.
Proof.
  induction lines as [|l lines IH]; cbn [forallb unlines]; intros H.
  - reflexivity.
  - apply andb_true_iff in H. destruct H as [Hl Hlines].
    rewrite (splitlines_line _ _ Hl), (IH Hlines). reflexivity.
Qed.

Lemma splitlines_no_boundary_upto (n : nat) :
  forall s, String.length s <= n -> forallb no_boundary (PyStr.splitlines s) = true.
Proof.
  induction n as [|n IH]; intros s Hlen.
  - destruct s; [reflexivity | cbn in Hlen; lia].
  - destruct s as [|c rest]; [reflexivity|].
    cbn in Hlen. cbn [PyStr.splitlines].
    destruct (PyStr.is_line_boundary c) eqn:Hc.
    + cbn [forallb no_boundary andb].
      destruct rest as [|c2 rest']; [reflexivity|].
      destruct (PyStr.is_CR c && PyStr.is_LF c2).
      * apply IH. cbn in Hlen. lia.
      * apply IH. lia.
    + pose proof (IH rest ltac:(lia)) as Hrest.
      destruct (PyStr.splitlines rest) as [|l ls]; cbn [forallb no_boundary].
      * rewrite Hc. reflexivity.
      * cbn [forallb] in Hrest. rewrite Hc. exact Hrest.
Qed.

Lemma splitlines_no_boundary (s : string) :
  forallb no_boundary (PyStr.splitlines s) = true.
Proof. apply (splitlines_no_boundary_upto (String.length s)). lia. Qed.

(** X8. Where the system is not Windows and [pgrep] prints the process
    ids one per line, each ended by a line feed, [_is_already_running]
    returns exactly these ids as data, in their order, and stores the first
    one. *)
Theorem _is_already_running_pgrep_pids
    (w : World) (self : Auth) (t : Trace) (pid : string) (pids : list string) :
  is_windows self = false ->
  forallb no_boundary (pid :: pids) = true ->
  run_stdout w t (running_command false) = unlines (pid :: pids) ->
  _is_already_running w self t =
    (Returned {| is_running := true; data := DataLines (pid :: pids) |},
     set_server_process_id (PidStr pid) self, t ++ [EvRun (running_command false)]).
Proof.
  intros Hwin Hpids Hout.
  pose proof (_is_already_running_posix w self t Hwin) as H. cbn zeta in H.
  rewrite H, Hout, (splitlines_unlines _ Hpids).
  destruct pid; reflexivity.
Qed.

Lemma _is_already_running_pgrep_pids_witness :
  _is_already_running (listing_world (unlines ["311"; "4242"; "90210"])) (init "posix" 1 2) [] =
    (Returned {| is_running := true; data := DataLines ["311"; "4242"; "90210"] |},
     set_server_process_id (PidStr "311") (init "posix" 1 2),
     [EvRun (running_command false)]).
Proof.
  exact (_is_already_running_pgrep_pids (listing_world (unlines ["311"; "4242"; "90210"]))
           (init "posix" 1 2) [] "311" ["4242"; "90210"] eq_refl eq_refl eq_refl).
Defined.

(** X9. Where the system is not Windows, whatever [pgrep] prints, no line
    that [_is_already_running] returns as data holds a line boundary, and
    neither does the process id it stores: [close_gateway] is then run on
    one line of text. *)
Theorem _is_already_running_pgrep_single_lines
    (w : World) (self : Auth) (t : Trace) :
  is_windows self = false ->
  run_stdout w t (running_command false) <> EmptyString ->
  exists first rest,
    _is_already_running w self t =
      (Returned {| is_running := true; data := DataLines (first :: rest) |},
       set_server_process_id (PidStr first) self, t ++ [EvRun (running_command false)])
    /\ forallb no_boundary (first :: rest) = true.
Proof.
  intros Hwin Hsome.
  pose proof (_is_already_running_posix w self t Hwin) as H. cbn zeta in H.
  rewrite H.
  destruct (String.eqb_spec (run_stdout w t (running_command false)) EmptyString)
    as [Hempty | _]; [contradiction|].
  pose proof (splitlines_no_boundary (run_stdout w t (running_command false))) as Hlines.
  destruct (splitlines_nonempty _ Hsome) as (first & rest & Heq).
  rewrite Heq in *. exists first, rest. split; [reflexivity | exact Hlines].
Qed.

Lemma _is_already_running_pgrep_single_lines_witness :
  exists first rest,
    _is_already_running (listing_world ("77" ++ CR ++ LF ++ "78")) (init "posix" 1 2) [] =
      (Returned {| is_running := true; data := DataLines (first :: rest) |},
       set_server_process_id (PidStr first) (init "posix" 1 2),
       [EvRun (running_command false)])
    /\ forallb no_boundary (first :: rest) = true.
Proof.
  apply (_is_already_running_pgrep_single_lines (listing_world ("77" ++ CR ++ LF ++ "78"))
           (init "posix" 1 2) []); [reflexivity | discriminate].
Defined.

Lemma split_not_nil (c : ascii) (s : string) :
  exists f fs, PyStr.split c s = f :: fs.
Proof.
  destruct (PyStr.split c s) as [|f fs] eqn:H; [|eauto].
  exfalso. exact (split_nonempty c s H).
Qed.

Lemma split_join (c : ascii) (s : string) :
  join (String c EmptyString) (PyStr.split c s) = s.
Proof.
  induction s as [|d rest IH]; [reflexivity|].
  cbn [PyStr.split]. destruct (Ascii.eqb_spec c d) as [<- | Hcd].
  - destruct (split_not_nil c rest) as (f & fs & Hsplit).
    rewrite Hsplit in *. cbn [join]. cbn [join] in IH.
    destruct fs; cbn in *; rewrite IH; reflexivity.
  - destruct (split_not_nil c rest) as (f & fs & Hsplit).
    rewrite Hsplit in *. cbn [join]. cbn [join] in IH.
    destruct fs; cbn in *; rewrite IH; reflexivity.
Qed.

Lemma split_without (c d : ascii) (s : string) :
  (Ascii.eqb d c = true \/ has_char d s = false) ->
  forallb (fun f => negb (has_char d f)) (PyStr.split c s) = true.
Proof.
  induction s as [|e rest IH]; intros H; [reflexivity|].
  assert (Hrest : Ascii.eqb d c = true \/ has_char d rest = false).
  { destruct H as [H | H]; [left; exact H|].
    cbn [has_char] in H. apply orb_false_iff in H. right. apply H. }
  specialize (IH Hrest). cbn [PyStr.split].
  destruct (Ascii.eqb_spec c e) as [<- | Hce].
  - cbn [forallb has_char negb andb]. exact IH.
  - assert (Hde : Ascii.eqb d e = false).
    { destruct H as [H | H].
      - apply Ascii.eqb_eq in H. subst d. apply Ascii.eqb_neq. exact Hce.
      - cbn [has_char] in H. apply orb_false_iff in H. apply H. }
    destruct (PyStr.split c rest) as [|f fs]; cbn [forallb has_char] in *.
    + rewrite Hde. reflexivity.
    + rewrite Hde. exact IH.
Qed.

Lemma remove_char_without (c : ascii) (s : string) :
  has_char c (PyStr.remove_char c s) = false.
Proof.
  induction s as [|d rest IH]; [reflexivity|].
  cbn. destruct (Ascii.eqb c d) eqn:Hcd; [exact IH|].
  cbn. rewrite Hcd. exact IH.
Qed.

(** X10. The header names that [_is_already_running] hands to the CSV
    reader are never an empty list, hold neither a comma nor a double
    quote, and joined by commas give back the first line of the output
    without its double quotes. *)
Theorem headers_of_first_line (first : string) :
  headers_of first <> []
  /\ forallb (fun h => negb (has_char "," h) && negb (has_char double_quote h))
       (headers_of first) = true
  /\ join "," (headers_of first) = PyStr.remove_char double_quote first.
Proof.
  unfold headers_of. split; [apply split_nonempty|]. split; [|apply split_join].
  pose proof (split_without "," "," (PyStr.remove_char double_quote first)
                (or_introl eq_refl)) as Hcomma.
  pose proof (split_without "," double_quote (PyStr.remove_char double_quote first)
                (or_intror (remove_char_without _ _))) as Hquote.
  revert Hcomma Hquote.
  induction (PyStr.split "," (PyStr.remove_char double_quote first)) as [|h hs IH];
    cbn [forallb]; intros Hcomma Hquote; [reflexivity|].
  apply andb_true_iff in Hcomma, Hquote.
  destruct Hcomma as [-> Hcomma], Hquote as [-> Hquote].
  cbn [andb]. apply IH; assumption.
Qed.

(** ** What the collaborators are asked *)

Lemma allowed_event_frame (self1 self2 : Auth) (ev : Event) :
  session self1 = session self2 ->
  is_windows self1 = is_windows self2 ->
  allowed_event self1 ev -> allowed_event self2 ev.
Proof.
  intros Hs Hw. destruct ev; cbn; rewrite ?Hs, ?Hw; tauto.
Qed.

Lemma Op_is_close (op : Op) :
  (exists pid, op = OpCloseGateway pid) \/ ~ (exists pid, op = OpCloseGateway pid).
Proof.
  destruct op; try (right; intros [pid H]; discriminate). left. eauto.
Qed.

Lemma call_events (w : World) (op : Op) (self : Auth) (t : Trace) :
  exists new,
    trace_of (call w op self t) = t ++ new /\ Forall (allowed_event self) new.
Proof.
  destruct (Op_is_close op) as [[pid ->] | Hop].
  - unfold call, close_gateway. unfold_monad. cbn -[close_command].
    eexists. split; [reflexivity|].
    apply Forall_cons; [|apply Forall_nil]. right. eexists. reflexivity.
  - destruct self as [c s a p win].
    destruct win, op; try (exfalso; apply Hop; eexists; reflexivity);
      run_method; rewrite <- ?app_assoc; cbn;
      (eexists; split; [reflexivity|]);
      repeat (apply Forall_cons;
              [cbn;
               first [ reflexivity
                     | left; reflexivity
                     | right; reflexivity
                     | repeat split; auto 6 ]|]);
      apply Forall_nil.
Qed.

Lemma run_ops_events (w : World) (ops : list Op) :
  forall (self : Auth) (t : Trace),
  exists new,
    snd (run_ops w ops self t) = t ++ new /\ Forall (allowed_event self) new.
Proof.
  induction ops as [|op ops IH]; intros self t; cbn [run_ops].
  - exists []. rewrite app_nil_r. split; [reflexivity | constructor].
  - destruct (call_events w op self t) as (new1 & Ht1 & Hnew1).
    destruct (IH (self_of (call w op self t)) (trace_of (call w op self t)))
      as (new2 & Ht2 & Hnew2).
    destruct (call_frame w op self t) as (_ & Hs & Hw & _). cbn zeta in Hs, Hw.
    exists (new1 ++ new2). split.
    + rewrite Ht2, Ht1, app_assoc. reflexivity.
    + apply Forall_app. split; [exact Hnew1|].
      eapply Forall_impl; [|exact Hnew2].
      intros ev. apply allowed_event_frame; assumption.
Qed.

(** X11. Whatever calls are made on an object, in whatever order and
    whatever the world answers, the trace only grows, and every event added
    is one of these: a POST through the session given to [__init__] to one
    of the four listed endpoints; the detection command or a termination
    command of the platform the object was made for; a [Popen] with the
    start-up arguments of that platform; the browser at
    https://localhost:5000; one of the two messages. *)
Theorem calls_ask_only_what_is_allowed
    (w : World) (ops : list Op) (self : Auth) (t : Trace) :
  exists new,
    snd (run_ops w ops self t) = t ++ new /\ Forall (allowed_event self) new.
Proof. apply run_ops_events. Qed.

(** ** Where the authenticated flag comes from *)





(** X13. A swallowed error cannot be told from the answer "not
    authenticated": when the status check raises an instance of [Exception]
    in one world and yields a value that does not equal [True] in another,
    [check_auth] returns the same result, leaves the same [self] and the
    same trace in both. *)
Theorem check_auth_error_looks_unauthenticated
    (w1 w2 : World) (self : Auth) (t : Trace) (e : PyExc) (flag : PyVal) :
  status_check w1 self t = Raised e ->
  isinstance_Exception e = true ->
  status_check w2 self t = Returned flag ->
  Py.eq_True flag = false ->
  check_auth w1 self t = check_auth w2 self t
  /\ check_auth w1 self t =
       (Returned tt, self,
        t ++ [EvPrint "Checking authentication status...";
              EvRequest (session self) status_request]).
Proof.
  intros H1 He H2 Hflag.
  pose proof (check_auth_unfolded w1 self t) as Hc1.
  pose proof (check_auth_unfolded w2 self t) as Hc2.
  cbn zeta in Hc1, Hc2. rewrite Hc1, Hc2, H1, H2, He, Hflag. split; reflexivity.
Qed.

Lemma check_auth_error_looks_unauthenticated_witness :
  check_auth keyless_world (init "posix" 1 2) [] =
    check_auth denying_world (init "posix" 1 2) [].
Proof.
  exact (proj1 (check_auth_error_looks_unauthenticated keyless_world denying_world
                  (init "posix" 1 2) [] (KeyError "authenticated") (PyBool false)
                  eq_refl eq_refl eq_refl eq_refl)).
Defined.

(** ** login on Windows *)

(** X14. On Windows, when the output of [tasklist] holds the text INFO:,
    [login] starts the gateway: one [Popen] of [cmd /k start] with the
    window title, the batch file and the configuration, in a new console,
    whose pid it stores, and then the browser. *)
Theorem login_windows_starts_after_info
    (w : World) (_use_selenium : bool) (self : Auth) (t : Trace) :
  is_windows self = true ->
  PyStr.contains "INFO:" (run_stdout w t (running_command true)) = true ->
  let t1 := t ++ [EvRun (running_command true)] in
  login w _use_selenium self t =
    (Returned tt,
     set_server_process_id (PidInt (popen_pid w t1 (startup_kwargs true))) self,
     t1 ++ [EvPopen (startup_kwargs true); EvWebOpen gateway_url])
  /\ args (startup_kwargs true) =
       ["cmd"; "/k"; "start"; "Interactive Brokers Python API"; "bin\run.bat"; "root\conf.yaml"]
  /\ creationflags (startup_kwargs true) = Some CREATE_NEW_CONSOLE.
Proof.
  intros Hwin Hinfo t1.
  pose proof (_is_already_running_tasklist w self t Hwin) as Hrun. cbn zeta in Hrun.
  rewrite Hinfo in Hrun. fold t1 in Hrun.
  split; [|split; reflexivity].
  unfold login, bind at 1. rewrite Hrun. cbn -[running_command startup_kwargs].
  unfold _startup_gateway. unfold_monad. cbn -[running_command startup_kwargs].
  rewrite Hwin, <- app_assoc. reflexivity.
Qed.

Lemma login_windows_starts_after_info_witness :
  login (windows_world no_tasks_message (Returned [])) false (init "nt" 1 2) [] =
    (Returned tt, set_server_process_id (PidInt 1001) (init "nt" 1 2),
     [EvRun (running_command true); EvPopen (startup_kwargs true); EvWebOpen gateway_url]).
Proof.
  exact (proj1 (login_windows_starts_after_info (windows_world no_tasks_message (Returned []))
                  false (init "nt" 1 2) [] eq_refl eq_refl)).
Defined.

(** X15. On Windows, when the first row that the CSV reader finds in the
    output of [tasklist] has the entry [pid] under PID, [login] starts
    nothing and prints its message, and [close_gateway()] afterwards runs
    [Taskkill /F /PID] on [pid]. *)
Theorem login_then_close_gateway_windows
    (w : World) (_use_selenium : bool) (self : Auth) (t : Trace)
    (first : string) (rest : list string) (row : CsvRow) (rows : list CsvRow)
    (pid : string) :
  is_windows self = true ->
  PyStr.contains "INFO:" (run_stdout w t (running_command true)) = false ->
  PyStr.splitlines (run_stdout w t (running_command true)) = first :: rest ->
  DictReader w rest (headers_of first) = Returned (row :: rows) ->
  row_get row "PID" = Some (Some pid) ->
  let after := login w _use_selenium self t in
  after =
    (Returned tt, set_server_process_id (PidStr pid) self,
     t ++ [EvRun (running_command true);
           EvPrint "Gateway already running, no need to start back up."])
  /\ close_gateway w PidNone (self_of after) (trace_of after) =
       (Returned (run_stdout w (trace_of after) ["Taskkill"; "/F"; "/PID"; pid]),
        self_of after, trace_of after ++ [EvRun ["Taskkill"; "/F"; "/PID"; pid]]).
Proof.
  intros Hwin Hinfo Hlines Hrows Hpid after.
  pose proof (_is_already_running_tasklist w self t Hwin) as Hrun. cbn zeta in Hrun.
  rewrite Hinfo, Hlines, Hrows, Hpid in Hrun.
  assert (Hafter : after =
            (Returned tt, set_server_process_id (PidStr pid) self,
             t ++ [EvRun (running_command true);
                   EvPrint "Gateway already running, no need to start back up."])).
  { subst after. unfold login, bind at 1. rewrite Hrun.
    cbn -[running_command]. unfold_monad. rewrite <- app_assoc. reflexivity. }
  split; [exact Hafter|]. rewrite Hafter.
  unfold close_gateway, close_command. unfold_monad. cbn -[running_command].
  rewrite Hwin. reflexivity.
Qed.

Lemma login_then_close_gateway_windows_witness :
  let w := windows_world
             (quoted "Image Name" ++ "," ++ quoted "PID" ++ LF
              ++ quoted "cmd.exe" ++ "," ++ quoted "5120" ++ LF)
             (Returned [[("Image Name", Some "cmd.exe"); ("PID", Some "5120")]]) in
  let after := login w false (init "nt" 1 2) [] in
  trace_of (close_gateway w PidNone (self_of after) (trace_of after)) =
    [EvRun (running_command true);
     EvPrint "Gateway already running, no need to start back up.";
     EvRun ["Taskkill"; "/F"; "/PID"; "5120"]].
Proof.
  exact (f_equal trace_of
           (proj2 (login_then_close_gateway_windows
                     (windows_world
                        (quoted "Image Name" ++ "," ++ quoted "PID" ++ LF
                         ++ quoted "cmd.exe" ++ "," ++ quoted "5120" ++ LF)
                        (Returned [[("Image Name", Some "cmd.exe"); ("PID", Some "5120")]]))
                     false (init "nt" 1 2) [] _ _ _ _ "5120"
                     eq_refl eq_refl eq_refl eq_refl eq_refl))).
Defined.

(** ** The text of a process id *)

Lemma of_int_round_trip (n : Z) :
  option_map Z.of_int (NilZero.int_of_string (PyStr.of_int n)) = Some n.
Proof.
  unfold PyStr.of_int. rewrite NilZero.isi.
  - cbn. rewrite DecimalZ.of_to. reflexivity.
  - destruct n; cbn; try discriminate.
    intros H. injection H as H. exact (Unsigned.to_uint_nonnil _ H).
  - destruct n; cbn; try discriminate.
    intros H. injection H as H. exact (Unsigned.to_uint_nonnil _ H).
Qed.

(** X16. The command of [close_gateway] tells [int] process ids apart:
    two different ids never give the same command, and no id gives the
    command that is run when there is no process id at all. *)
Theorem close_command_tells_pids_apart (windows : bool) (n m : Z) :
  (close_command windows (PidInt n) = close_command windows (PidInt m) -> n = m)
  /\ close_command windows (PidInt n) <> close_command windows PidNone.
Proof.
  split.
  - intros H.
    assert (Hstr : PyStr.of_int n = PyStr.of_int m).
    { destruct windows; cbn in H; congruence. }
    pose proof (of_int_round_trip n) as Hn. rewrite Hstr, of_int_round_trip in Hn.
    congruence.
  - intros H.
    assert (Hstr : PyStr.of_int n = "None").
    { destruct windows; cbn in H; congruence. }
    pose proof (of_int_round_trip n) as Hn. rewrite Hstr in Hn. discriminate.
Qed.

(** ** What the pattern of pgrep selects *)

Lemma match_here_literals (lit : string) (c : ascii) :
  forall s,
    Pgrep.match_here (map Pgrep.Lit (list_ascii_of_string lit) ++ [Pgrep.Star c]) s =
    prefix lit s.
Proof.
  induction lit as [|a lit IH]; intros s.
  - destruct s; reflexivity.
  - destruct s as [|d s']; [reflexivity|].
    change (Pgrep.match_here
              (map Pgrep.Lit (list_ascii_of_string (String a lit)) ++ [Pgrep.Star c])
              (String d s'))
      with (Ascii.eqb a d &&
            Pgrep.match_here (map Pgrep.Lit (list_ascii_of_string lit) ++ [Pgrep.Star c]) s').
    change (prefix (String a lit) (String d s'))
      with (if ascii_dec a d then prefix lit s' else false).
    rewrite IH. destruct (ascii_dec a d) as [Heq | Hne].
    + apply Ascii.eqb_eq in Heq. rewrite Heq. reflexivity.
    + apply Ascii.eqb_neq in Hne. rewrite Hne. reflexivity.
Qed.

Lemma search_contains (p : list Pgrep.atom) (lit : string) :
  (forall s, Pgrep.match_here p s = prefix lit s) ->
  forall s, Pgrep.search p s = PyStr.contains lit s.
Proof.
  intros Hp. induction s as [|d s IH]; cbn [Pgrep.search PyStr.contains].
  - rewrite Hp. reflexivity.
  - rewrite Hp, IH. reflexivity.
Qed.

(** X17. The pattern that [_is_already_running] hands to [pgrep -f] is a
    regular expression whose star belongs to the last letter only: it
    selects exactly the command lines that hold the text "Interactive
    Brokers Python AP", with its spaces, somewhere. *)
Theorem pgrep_pattern_selects (cmdline : string) :
  Pgrep.matches pgrep_pattern cmdline =
  PyStr.contains "Interactive Brokers Python AP" cmdline.
Proof.
  unfold Pgrep.matches.
  apply (search_contains (Pgrep.parse pgrep_pattern) "Interactive Brokers Python AP").
  intros s.
  exact (match_here_literals "Interactive Brokers Python AP" "I" s).
Qed.
